(** * disentanglement_lib: the packaging descriptor [setup.py]

    The file is one call [setup(...)] whose keyword arguments are literals,
    apart from [packages=find_packages()].  Each keyword argument is
    embedded below as a constant of the same name; [setup] collects them
    into the record of keyword arguments the call receives.  Python [str]
    is [string], a list literal is a [list], the dict literal of
    [extras_require] is a [gmap] built by inserting its items in order.
    The text of the file is kept as well, as a small syntax tree with its
    evaluation, and shown to make the call the record describes. *)

From Stdlib Require Import String Ascii List Arith Bool Lia.
From stdpp Require Import gmap strings list fin_maps.
Import ListNotations.
Open Scope string_scope.

(** ** Keyword arguments of the [setup] call *)

Definition name : string := "disentanglement_lib".

Definition version : string := "1.5".

Definition description : string :=
  "Library for research on disentangled representations.".

Definition author : string := "DisentanglementLib Authors".

Definition author_email : string := "no-reply@google.com".

Definition url : string := "http://github.com/google-research/disentanglement_lib".

Definition license : string := "Apache 2.0".

Definition include_package_data : bool := true.

Definition scripts : list string :=
  [ "bin/dlib_aggregate_results";
    "bin/dlib_reproduce";
    "bin/dlib_reason";
    "bin/dlib_visualize_dataset";
    "bin/dlib_evaluate";
    "bin/dlib_udr";
    "bin/dlib_postprocess";
    "bin/dlib_train";
    "bin/dlib_visualize_dataset";
    "bin/dlib_visualize_model";
    "bin/dlib_tests";
    "bin/dlib_download_data";
    "bin/dlib_reproduce_jmlr";
    "bin/dlib_reproduce_semi_supervised";
    "bin/dlib_reproduce_weakly_supervised";
    "bin/dlib_train_semi_supervised";
    "bin/dlib_train_weakly_supervised" ].

Definition install_requires : list string :=
  [ "future==0.17.1";
    "imageio==2.5.0";
    "gin-config==0.1.4";
    "scikit-learn==0.20.3";
    "numpy==1.16.3";
    "pandas==0.24.2";
    "simplejson==3.16.0";
    "six==1.12.0";
    "matplotlib==3.0.3";
    "Pillow==6.0.0";
    "scipy==1.2.1";
    "tensorflow-hub==0.4.0";
    "tensorflow_probability==0.7.0";
    "seaborn==0.11.0" ].

(** A dict literal evaluates its items left to right, each one stored
    under its key (a repeated key would keep the last value). *)
Definition extras_require : gmap string (list string) :=
  <["tf_gpu" := ["tensorflow-gpu==1.14"]]>
    (<["tf" := ["tensorflow==1.14"]]> ∅).

Definition classifiers : list string :=
  [ "Development Status :: 4 - Beta";
    "Intended Audience :: Developers";
    "Intended Audience :: Science/Research";
    "License :: OSI Approved :: Apache Software License";
    "Topic :: Scientific/Engineering :: Artificial Intelligence" ].

Definition keywords : string :=
  "tensorflow machine learning disentanglement learning".

(** The keyword arguments as [setup] receives them. *)
Record SetupKeywords : Type := MkSetupKeywords {
  kw_name : string;
  kw_version : string;
  kw_description : string;
  kw_author : string;
  kw_author_email : string;
  kw_url : string;
  kw_license : string;
  kw_packages : list string;
  kw_include_package_data : bool;
  kw_scripts : list string;
  kw_install_requires : list string;
  kw_extras_require : gmap string (list string);
  kw_classifiers : list string;
  kw_keywords : string
}.

(** The call itself.  [find_packages()] belongs to setuptools and reads
    the directory the descriptor is run in; its result is the one value
    the descriptor does not write down, so it is the argument here. *)
Definition setup (find_packages : list string) : SetupKeywords :=
  {| kw_name := name;
     kw_version := version;
     kw_description := description;
     kw_author := author;
     kw_author_email := author_email;
     kw_url := url;
     kw_license := license;
     kw_packages := find_packages;
     kw_include_package_data := include_package_data;
     kw_scripts := scripts;
     kw_install_requires := install_requires;
     kw_extras_require := extras_require;
     kw_classifiers := classifiers;
     kw_keywords := keywords |}.

(** ** Reading a requirement string *)

Module Requirement.

Definition in_range (lo hi : nat) (c : ascii) : bool :=
  let n := nat_of_ascii c in Nat.leb lo n && Nat.leb n hi.

Definition is_digit : ascii -> bool := in_range 48 57.

Definition is_upper : ascii -> bool := in_range 65 90.

Definition is_lower : ascii -> bool := in_range 97 122.

Definition is_alnum (c : ascii) : bool := is_digit c || is_upper c || is_lower c.

(** The separators a distribution name may contain: [-], [_] and [.]. *)
Definition is_sep (c : ascii) : bool :=
  Ascii.eqb c "-" || Ascii.eqb c "_" || Ascii.eqb c ".".

Fixpoint all_chars (f : ascii -> bool) (s : string) : bool :=
  match s with
  | EmptyString => true
  | String c s' => f c && all_chars f s'
  end.

Fixpoint last_char (s : string) : option ascii :=
  match s with
  | EmptyString => None
  | String c EmptyString => Some c
  | String _ s' => last_char s'
  end.

(** A distribution name: letters, digits and separators, with a letter or
    a digit at both ends. *)
Definition is_name (s : string) : bool :=
  match s, last_char s with
  | String c _, Some d => is_alnum c && is_alnum d
                          && all_chars (fun x => is_alnum x || is_sep x) s
  | _, _ => false
  end.

(** A plain release number: non-empty runs of digits separated by single
    dots.  [seg] tells whether the current run already has a digit. *)
Fixpoint is_release (seg : bool) (s : string) : bool :=
  match s with
  | EmptyString => seg
  | String c s' =>
      if is_digit c then is_release true s'
      else if Ascii.eqb c "." then seg && is_release false s'
      else false
  end.

Definition is_version (s : string) : bool := is_release false s.

(** Cut a string at its first [==]: the text before it and the text
    after it. *)
Definition prepend (c : ascii) (o : option (string * string))
  : option (string * string) :=
  match o with
  | Some (n, v) => Some (String c n, v)
  | None => None
  end.

Fixpoint split_pin (s : string) : option (string * string) :=
  match s with
  | EmptyString => None
  | String c s' =>
      match s' with
      | String d v =>
          if Ascii.eqb c "=" && Ascii.eqb d "=" then Some (EmptyString, v)
          else prepend c (split_pin s')
      | EmptyString => None
      end
  end.

(** [name==version], and nothing else: no other operator, no wildcard, no
    second clause, no extras or markers. *)
Definition is_exact_pin (r : string) : bool :=
  match split_pin r with
  | Some (n, v) => is_name n && is_version v
  | None => false
  end.

(** The characters an exact pin is written with; no comparison sign other
    than [=], no [*], no comma, no blank. *)
Definition is_pin_char (c : ascii) : bool :=
  is_alnum c || is_sep c || Ascii.eqb c "=".

Definition to_lower (c : ascii) : ascii :=
  if is_upper c then ascii_of_nat (nat_of_ascii c + 32) else c.

(** Names are compared the way package indexes do: case is ignored and
    every run of separators counts as one [-]. *)
Fixpoint canonical_from (after_sep : bool) (s : string) : string :=
  match s with
  | EmptyString => EmptyString
  | String c s' =>
      if is_sep c
      then (if after_sep then canonical_from true s'
            else String "-" (canonical_from true s'))
      else String (to_lower c) (canonical_from false s')
  end.

Definition canonical (s : string) : string := canonical_from false s.

(** The leading name of a requirement string: everything before the first
    character that is neither a letter, a digit nor a separator. *)
Fixpoint leading_name (r : string) : string :=
  match r with
  | EmptyString => EmptyString
  | String c r' =>
      if is_alnum c || is_sep c then String c (leading_name r')
      else EmptyString
  end.

(** [names r pkg]: the requirement [r] is about the package [pkg]. *)
Definition names (r pkg : string) : bool :=
  String.eqb (canonical (leading_name r)) (canonical pkg).

(** The version an exact pin of [pkg] in [reqs] fixes; [None] when [reqs]
    holds no exact pin of [pkg]. *)
Fixpoint pinned_version (reqs : list string) (pkg : string) : option string :=
  match reqs with
  | [] => None
  | r :: reqs' =>
      match split_pin r with
      | Some (n, v) =>
          if is_exact_pin r && String.eqb (canonical n) (canonical pkg)
          then Some v else pinned_version reqs' pkg
      | None => pinned_version reqs' pkg
      end
  end.

End Requirement.

(** ** The entry points and the tree they live in *)

(** The sixteen console scripts, as the specification lists them. *)
Definition spec_console_scripts : list string :=
  [ "dlib_aggregate_results";
    "dlib_reproduce";
    "dlib_reason";
    "dlib_visualize_dataset";
    "dlib_evaluate";
    "dlib_udr";
    "dlib_postprocess";
    "dlib_train";
    "dlib_visualize_model";
    "dlib_tests";
    "dlib_download_data";
    "dlib_reproduce_jmlr";
    "dlib_reproduce_semi_supervised";
    "dlib_reproduce_weakly_supervised";
    "dlib_train_semi_supervised";
    "dlib_train_weakly_supervised" ].

Definition script_path (n : string) : string := "bin/" ++ n.

Module SourceTree.

Inductive entry : Type :=
  | File (executable : bool)
  | Directory.

(** Modelled from the spec: the [bin/] directory of the repository, whose
    files are not among the sources.  The specification names the sixteen
    installed console scripts and says that every listed path resolves to
    an existing executable at packaging time; the tree holds the directory
    and, under it, one executable file for each named script. *)
Definition tree : gmap string entry :=
  <["bin" := Directory]>
    (list_to_map (map (fun n => (script_path n, File true)) spec_console_scripts)).

(** A path resolves to an executable when the tree has a file there and
    the file may be executed. *)
Definition is_executable (t : gmap string entry) (p : string) : bool :=
  match t !! p with
  | Some (File x) => x
  | Some Directory => false
  | None => false
  end.

End SourceTree.

(** ** Counting in a list of paths *)

Definition occurrences (x : string) (l : list string) : nat :=
  count_occ string_dec l x.

(** The positions at which [x] stands in [l], the first element of [l]
    being at position [i]. *)
Fixpoint positions_from (i : nat) (x : string) (l : list string) : list nat :=
  match l with
  | [] => []
  | y :: l' =>
      if String.eqb x y then i :: positions_from (S i) x l'
      else positions_from (S i) x l'
  end.

Definition distinct (l : list string) : list string := nodup string_dec l.

(** The path the script list repeats. *)
Definition repeated_script : string := "bin/dlib_visualize_dataset".

(** A dependency string the call declares: an element of
    [install_requires] or of a value of [extras_require]. *)
Definition declared (r : string) : Prop :=
  In r install_requires \/
  exists (k : string) (reqs : list string),
    extras_require !! k = Some reqs /\ In r reqs.

(** The requirements an extra adds; none for a key that is not offered. *)
Definition extra (k : string) : list string :=
  default [] (extras_require !! k).

(** ** Splitting and joining text *)

Module Text.

(** [strip_prefix p s]: what follows [p] in [s], when [s] starts with [p]. *)
Fixpoint strip_prefix (p s : string) : option string :=
  match p, s with
  | EmptyString, _ => Some s
  | String a p', String b s' =>
      if Ascii.eqb a b then strip_prefix p' s' else None
  | String _ _, EmptyString => None
  end.

(** [sep.join(parts)]. *)
Fixpoint join (sep : string) (parts : list string) : string :=
  match parts with
  | [] => EmptyString
  | x :: rest =>
      match rest with
      | [] => x
      | _ :: _ => x ++ sep ++ join sep rest
      end
  end.

(** Put a character in front of the first part. *)
Definition push (c : ascii) (parts : list string) : list string :=
  match parts with
  | seg :: segs => String c seg :: segs
  | [] => [String c EmptyString]
  end.

(** [s.split(sep)], cutting at the occurrences of [sep] from the left.
    Each step consumes a separator or a character; the length of [s] is
    fuel enough for a separator that is not empty. *)
Fixpoint split_fuel (fuel : nat) (sep s : string) : list string :=
  match fuel with
  | O => [s]
  | S fuel' =>
      match strip_prefix sep s with
      | Some r => EmptyString :: split_fuel fuel' sep r
      | None =>
          match s with
          | EmptyString => [EmptyString]
          | String c s' => push c (split_fuel fuel' sep s')
          end
      end
  end.

Definition split (sep s : string) : list string :=
  split_fuel (String.length s) sep s.

Definition first_char (s : string) : option ascii :=
  match s with
  | EmptyString => None
  | String c _ => Some c
  end.

Definition contains (c : ascii) (s : string) : bool :=
  negb (Requirement.all_chars (fun x => negb (Ascii.eqb x c)) s).

End Text.

(** ** Reading the other keyword arguments *)

(** The package a requirement string is about, under the name package
    indexes compare by. *)
Definition requirement_package (r : string) : string :=
  Requirement.canonical (Requirement.leading_name r).

(** Every dependency string of the call, [install_requires] first, then
    the values of the two extras. *)
Definition all_declared : list string :=
  install_requires ++ extra "tf" ++ extra "tf_gpu".

(** A file name usable as a command: lowercase letters and underscores,
    at least one character. *)
Definition is_command_name (f : string) : bool :=
  match f with
  | EmptyString => false
  | String _ _ =>
      Requirement.all_chars
        (fun c => Requirement.is_lower c || Ascii.eqb c "_") f
  end.

(** The parts of a classifier, [Category :: ... :: Leaf]. *)
Definition segments (c : string) : list string := Text.split " :: " c.

Definition category (c : string) : string := hd EmptyString (segments c).

Definition leaf (c : string) : string := List.last (segments c) EmptyString.

(** A part of a classifier: not empty, no blank at either end, no colon. *)
Definition is_segment (s : string) : bool :=
  match Text.first_char s, Requirement.last_char s with
  | Some a, Some b =>
      negb (Ascii.eqb a " ") && negb (Ascii.eqb b " ")
      && negb (Text.contains ":" s)
  | _, _ => false
  end.

(** Blank characters, as [str.strip()] takes them. *)
Definition is_space (c : ascii) : bool :=
  let n := nat_of_ascii c in
  Nat.eqb n 32 || (Nat.leb 9 n && Nat.leb n 13) || (Nat.leb 28 n && Nat.leb n 31).

Fixpoint lstrip (s : string) : string :=
  match s with
  | EmptyString => EmptyString
  | String c s' => if is_space c then lstrip s' else s
  end.

Fixpoint rstrip (s : string) : string :=
  match s with
  | EmptyString => EmptyString
  | String c s' =>
      match rstrip s' with
      | EmptyString => if is_space c then EmptyString else String c EmptyString
      | String d r => String c (String d r)
      end
  end.

(** [s.strip()]. *)
Definition strip (s : string) : string := rstrip (lstrip s).

(** How a [keywords] argument given as one string is read: distutils
    cuts it at the commas and strips each piece
    ([[elm.strip() for elm in value.split(',')]]). *)
Definition keyword_entries (value : string) : list string :=
  map strip (Text.split "," value).

(** The words of a text, cut at single blanks. *)
Definition words (s : string) : list string := Text.split " " s.

(** A word in lowercase letters, at least one. *)
Definition is_lower_word (w : string) : bool :=
  match w with
  | EmptyString => false
  | String _ _ => Requirement.all_chars Requirement.is_lower w
  end.

(** ** The descriptor as a program *)

(** The part of Python the descriptor is written in, with the branching
    and looping constructs next to it: what a module of this kind may
    hold, so that the absence of control flow is a property of the text. *)
Module Py.

Local Open Scope list_scope.
Set Warnings "-register-all".

Inductive expr : Type :=
  | Str (s : string)
  | Bool (b : bool)
  | ListLit (items : list expr)
  | DictLit (items : list (expr * expr))
  | Name (id : string)
  | Call (func : expr) (args : list expr) (keywords : list (string * expr))
  | IfExp (test body orelse : expr).

Inductive stmt : Type :=
  | Expr (e : expr)
  | ImportFrom (module : string) (names : list string)
  | Assign (target : string) (e : expr)
  | If (test : expr) (body orelse : list stmt)
  | For (target : string) (iter : expr) (body : list stmt).

(** No conditional expression in [e]. *)
Fixpoint expr_straight (e : expr) : bool :=
  match e with
  | Str _ | Bool _ | Name _ => true
  | ListLit items => forallb expr_straight items
  | DictLit items =>
      forallb (fun kv => match kv with
                         | (k, v) => expr_straight k && expr_straight v
                         end) items
  | Call f args kws =>
      expr_straight f && forallb expr_straight args
      && forallb (fun kw => match kw with (_, v) => expr_straight v end) kws
  | IfExp _ _ _ => false
  end.

(** No [if], no [for] and no conditional expression in [s]. *)
Definition stmt_straight (s : stmt) : bool :=
  match s with
  | Expr e => expr_straight e
  | ImportFrom _ _ => true
  | Assign _ e => expr_straight e
  | If _ _ _ => false
  | For _ _ _ => false
  end.

Definition control_free (module : list stmt) : bool :=
  forallb stmt_straight module.

Inductive value : Type :=
  | VNone
  | VStr (s : string)
  | VBool (b : bool)
  | VList (items : list value)
  | VDict (items : list (string * value))
  | VFunc (qualname : string)
  | VDistribution.

(** The keyword arguments of one call of [setup]. *)
Definition call : Type := list (string * value).

(** What evaluating an expression gives: its value and the calls of
    [setup] made on the way; [None] is a raised exception. *)
Definition outcome : Type := option (value * list call).

Definition str_list (l : list string) : value := VList (map VStr l).

(** A keyword given twice to one call is refused. *)
Fixpoint repeats (ks : list string) : bool :=
  match ks with
  | [] => false
  | k :: ks' => existsb (String.eqb k) ks' || repeats ks'
  end.

Definition truthy (v : value) : bool :=
  match v with
  | VNone => false
  | VStr s => negb (String.eqb s EmptyString)
  | VBool b => b
  | VList items => match items with [] => false | _ :: _ => true end
  | VDict items => match items with [] => false | _ :: _ => true end
  | VFunc _ => true
  | VDistribution => true
  end.

(** Storing under a key of a dict: a key already there keeps its place
    and takes the new value. *)
Fixpoint dict_set (k : string) (v : value) (d : list (string * value))
  : list (string * value) :=
  match d with
  | [] => [(k, v)]
  | (k', v') :: d' =>
      if String.eqb k k' then (k, v) :: d' else (k', v') :: dict_set k v d'
  end.

Fixpoint dict_get (k : string) (d : list (string * value)) : option value :=
  match d with
  | [] => None
  | (k', v') :: d' => if String.eqb k k' then Some v' else dict_get k d'
  end.

(** The two functions of setuptools the descriptor imports.
    [find_packages()] returns the packages it finds in the directory,
    here [found]; its optional arguments are not modelled.  [setup] takes
    keyword arguments only and is recorded with them. *)
Definition apply (found : list string) (f : value)
    (args : list value) (kwargs : call) : outcome :=
  match f with
  | VFunc q =>
      if String.eqb q "setuptools.find_packages" then
        match args, kwargs with
        | [], [] => Some (str_list found, [])
        | _, _ => None
        end
      else if String.eqb q "setuptools.setup" then
        match args with
        | [] => Some (VDistribution, [kwargs])
        | _ :: _ => None
        end
      else None
  | _ => None
  end.

Section Sequences.

Variable ev : expr -> outcome.

(** Evaluate from left to right, stopping at the first exception. *)
Fixpoint eval_all (es : list expr) : option (list value * list call) :=
  match es with
  | [] => Some ([], [])
  | e :: es' =>
      match ev e with
      | Some (v, c1) =>
          match eval_all es' with
          | Some (vs, c2) => Some (v :: vs, c1 ++ c2)
          | None => None
          end
      | None => None
      end
  end.

(** The items of a dict literal; only [str] keys are modelled. *)
Fixpoint eval_items (items : list (expr * expr))
  : option (list (string * value) * list call) :=
  match items with
  | [] => Some ([], [])
  | (k, v) :: items' =>
      match ev k with
      | Some (VStr ks, c1) =>
          match ev v with
          | Some (vv, c2) =>
              match eval_items items' with
              | Some (d, c3) => Some ((ks, vv) :: d, c1 ++ c2 ++ c3)
              | None => None
              end
          | None => None
          end
      | _ => None
      end
  end.

Fixpoint eval_keywords (kws : list (string * expr))
  : option (call * list call) :=
  match kws with
  | [] => Some ([], [])
  | (k, e) :: kws' =>
      match ev e with
      | Some (v, c1) =>
          match eval_keywords kws' with
          | Some (kvs, c2) => Some ((k, v) :: kvs, c1 ++ c2)
          | None => None
          end
      | None => None
      end
  end.

End Sequences.

Definition env : Type := list (string * value).

Fixpoint eval (found : list string) (vars : env) (e : expr) {struct e} : outcome :=
  match e with
  | Str s => Some (VStr s, [])
  | Bool b => Some (VBool b, [])
  | ListLit items =>
      match eval_all (eval found vars) items with
      | Some (vs, c) => Some (VList vs, c)
      | None => None
      end
  | DictLit items =>
      match eval_items (eval found vars) items with
      | Some (kvs, c) =>
          Some (VDict (fold_left (fun d kv => dict_set (fst kv) (snd kv) d) kvs []), c)
      | None => None
      end
  | Name id =>
      match dict_get id vars with
      | Some v => Some (v, [])
      | None => None
      end
  | Call f args kws =>
      if repeats (map fst kws) then None else
      match eval found vars f with
      | Some (fv, c1) =>
          match eval_all (eval found vars) args with
          | Some (avs, c2) =>
              match eval_keywords (eval found vars) kws with
              | Some (kvs, c3) =>
                  match apply found fv avs kvs with
                  | Some (r, c4) => Some (r, c1 ++ c2 ++ c3 ++ c4)
                  | None => None
                  end
              | None => None
              end
          | None => None
          end
      | None => None
      end
  | IfExp t b o =>
      match eval found vars t with
      | Some (tv, c1) =>
          match (if truthy tv then eval found vars b else eval found vars o) with
          | Some (r, c2) => Some (r, c1 ++ c2)
          | None => None
          end
      | None => None
      end
  end.

(** The state of a run: the names bound so far and the calls of [setup]
    made so far. *)
Record state : Type := MkState {
  vars : env;
  calls : list call
}.

Section Blocks.

Variable ex : stmt -> state -> option state.

Fixpoint exec_block (body : list stmt) (st : state) : option state :=
  match body with
  | [] => Some st
  | s :: body' =>
      match ex s st with
      | Some st' => exec_block body' st'
      | None => None
      end
  end.

End Blocks.

(** The body of a [for], once for each item, the target bound to it. *)
Fixpoint exec_for (body : state -> option state) (target : string)
    (items : list value) (st : state) : option state :=
  match items with
  | [] => Some st
  | v :: items' =>
      match body (MkState (dict_set target v (vars st)) (calls st)) with
      | Some st' => exec_for body target items' st'
      | None => None
      end
  end.

Fixpoint exec (found : list string) (s : stmt) (st : state) {struct s}
  : option state :=
  match s with
  | Expr e =>
      match eval found (vars st) e with
      | Some (_, c) => Some (MkState (vars st) (calls st ++ c))
      | None => None
      end
  | ImportFrom module names =>
      Some (MkState
              (fold_left (fun vs n => dict_set n (VFunc (module ++ "." ++ n)%string) vs)
                         names (vars st))
              (calls st))
  | Assign target e =>
      match eval found (vars st) e with
      | Some (v, c) => Some (MkState (dict_set target v (vars st)) (calls st ++ c))
      | None => None
      end
  | If t body orelse =>
      match eval found (vars st) t with
      | Some (tv, c) =>
          let st' := MkState (vars st) (calls st ++ c) in
          if truthy tv then exec_block (exec found) body st'
          else exec_block (exec found) orelse st'
      | None => None
      end
  | For target iter body =>
      match eval found (vars st) iter with
      | Some (VList items, c) =>
          exec_for (exec_block (exec found) body) target items
            (MkState (vars st) (calls st ++ c))
      | _ => None
      end
  end.

(** Running a module from the empty state: the calls of [setup] it makes,
    in order. *)
Definition run (found : list string) (module : list stmt) : option (list call) :=
  match exec_block (exec found) module (MkState [] []) with
  | Some st => Some (calls st)
  | None => None
  end.

End Py.

(** The module [setup.py]: its docstring, its two imports and its one
    call.  The literals are the constants above. *)
Definition descriptor : list Py.stmt :=
  [ Py.Expr (Py.Str "setup.py for disentanglement_lib.");
    Py.ImportFrom "setuptools" ["find_packages"];
    Py.ImportFrom "setuptools" ["setup"];
    Py.Expr
      (Py.Call (Py.Name "setup") []
         [ ("name", Py.Str name);
           ("version", Py.Str version);
           ("description", Py.Str description);
           ("author", Py.Str author);
           ("author_email", Py.Str author_email);
           ("url", Py.Str url);
           ("license", Py.Str license);
           ("packages", Py.Call (Py.Name "find_packages") [] []);
           ("include_package_data", Py.Bool include_package_data);
           ("scripts", Py.ListLit (map Py.Str scripts));
           ("install_requires", Py.ListLit (map Py.Str install_requires));
           ("extras_require",
            Py.DictLit
              [ (Py.Str "tf", Py.ListLit [Py.Str "tensorflow==1.14"]);
                (Py.Str "tf_gpu", Py.ListLit [Py.Str "tensorflow-gpu==1.14"]) ]);
           ("classifiers", Py.ListLit (map Py.Str classifiers));
           ("keywords", Py.Str keywords) ]) ].

(** The names of the keyword arguments, in the order of the call. *)
Definition setup_keyword_names : list string :=
  [ "name"; "version"; "description"; "author"; "author_email"; "url";
    "license"; "packages"; "include_package_data"; "scripts";
    "install_requires"; "extras_require"; "classifiers"; "keywords" ].

(** ** Reading a recorded call back *)

Fixpoint strs (vs : list Py.value) : option (list string) :=
  match vs with
  | [] => Some []
  | Py.VStr s :: vs' =>
      match strs vs' with
      | Some l => Some (s :: l)
      | None => None
      end
  | _ :: _ => None
  end.

Definition get_str (k : string) (c : Py.call) : option string :=
  match Py.dict_get k c with
  | Some (Py.VStr s) => Some s
  | _ => None
  end.

Definition get_bool (k : string) (c : Py.call) : option bool :=
  match Py.dict_get k c with
  | Some (Py.VBool b) => Some b
  | _ => None
  end.

Definition get_strs (k : string) (c : Py.call) : option (list string) :=
  match Py.dict_get k c with
  | Some (Py.VList vs) => strs vs
  | _ => None
  end.

Fixpoint extras_of (items : list (string * Py.value))
    (m : gmap string (list string)) : option (gmap string (list string)) :=
  match items with
  | [] => Some m
  | (k, Py.VList vs) :: items' =>
      match strs vs with
      | Some l => extras_of items' (<[k := l]> m)
      | None => None
      end
  | _ :: _ => None
  end.

Definition get_extras (k : string) (c : Py.call)
  : option (gmap string (list string)) :=
  match Py.dict_get k c with
  | Some (Py.VDict items) => extras_of items ∅
  | _ => None
  end.

(** The record of keyword arguments a recorded call carries; [None] when
    one of the fourteen is missing or of another type. *)
Definition keywords_of_call (c : Py.call) : option SetupKeywords :=
  n ← get_str "name" c;
  v ← get_str "version" c;
  d ← get_str "description" c;
  a ← get_str "author" c;
  e ← get_str "author_email" c;
  u ← get_str "url" c;
  l ← get_str "license" c;
  p ← get_strs "packages" c;
  i ← get_bool "include_package_data" c;
  s ← get_strs "scripts" c;
  r ← get_strs "install_requires" c;
  x ← get_extras "extras_require" c;
  cl ← get_strs "classifiers" c;
  k ← get_str "keywords" c;
  Some (MkSetupKeywords n v d a e u l p i s r x cl k).

(** A descriptor that looks at what it finds: the name depends on whether
    [find_packages()] returns anything. *)
Definition branching_descriptor : list Py.stmt :=
  [ Py.ImportFrom "setuptools" ["find_packages"; "setup"];
    Py.Expr
      (Py.Call (Py.Name "setup") []
         [ ("name", Py.IfExp (Py.Call (Py.Name "find_packages") [] [])
                      (Py.Str name) (Py.Str "empty")) ]) ].

(** ** Properties *)

Import Requirement.

Ltac member := vm_compute; tauto.

(** A property checked by a boolean test on every element of a list holds
    of each of its members. *)
Lemma checked_on_list (f : string -> bool) (l : list string) :
  forallb f l = true -> forall x, In x l -> f x = true.
Proof. intros H x Hx. exact (proj1 (forallb_forall f l) H x Hx). Qed.

(** *** The script list *)

Lemma script_of_spec_name_listed :
  forallb (fun n => if in_dec string_dec (script_path n) scripts then true else false)
          spec_console_scripts = true.
Proof. vm_compute. reflexivity. Qed.

Lemma script_path_of_spec_name :
  forallb (fun p => existsb (fun n => String.eqb p (script_path n)) spec_console_scripts)
          scripts = true.
Proof. vm_compute. reflexivity. Qed.

(** C1: the scripts of the descriptor are the sixteen entry points of the
    specification: the names are sixteen and pairwise different, the path
    [bin/<name>] of each is in the script list, and every element of the
    script list is [bin/<name>] for one of them. *)
Theorem scripts_are_the_spec_entry_points :
  length spec_console_scripts = 16 /\
  List.NoDup spec_console_scripts /\
  (forall n, In n spec_console_scripts -> In ("bin/" ++ n) scripts) /\
  (forall p, In p scripts ->
     exists n, In n spec_console_scripts /\ p = "bin/" ++ n).
Proof.
  split; [reflexivity|]. split; [|split].
  - apply (NoDup_count_occ' string_dec). intros n Hn.
    apply (checked_on_list
             (fun x => Nat.eqb (count_occ string_dec spec_console_scripts x) 1)) in Hn.
    + now apply Nat.eqb_eq in Hn.
    + vm_compute. reflexivity.
  - intros n Hn.
    apply (checked_on_list _ _ script_of_spec_name_listed) in Hn.
    unfold script_path in Hn.
    destruct (in_dec string_dec ("bin/" ++ n) scripts) as [Hin|]; [exact Hin|discriminate].
  - intros p Hp.
    apply (checked_on_list _ _ script_path_of_spec_name) in Hp.
    apply existsb_exists in Hp. destruct Hp as (n & Hn & Heq).
    exists n. split; [exact Hn|]. now apply String.eqb_eq in Heq.
Qed.

Lemma scripts_are_the_spec_entry_points_witness :
  In "dlib_reason" spec_console_scripts /\ In "bin/dlib_reason" scripts /\
  In "bin/dlib_udr" scripts /\
  exists n, In n spec_console_scripts /\ "bin/dlib_udr" = "bin/" ++ n.
Proof.
  split; [member|]. split.
  - apply (proj1 (proj2 (proj2 scripts_are_the_spec_entry_points)) "dlib_reason"). member.
  - split; [member|].
    apply (proj2 (proj2 (proj2 scripts_are_the_spec_entry_points)) "bin/dlib_udr"). member.
Defined.

Lemma prefix_splits (a p : string) :
  String.prefix a p = true -> exists rest, p = a ++ rest.
Proof.
  revert p. induction a as [|c a IH]; intros p H.
  - exists p. reflexivity.
  - destruct p as [|d p]; [discriminate|]. simpl in H.
    destruct (ascii_dec c d) as [->|]; [|discriminate].
    destruct (IH p H) as [rest ->]. exists rest. reflexivity.
Qed.

(** C9: every element of the script list starts with [bin/dlib_]. *)
Theorem scripts_share_prefix :
  forall p, In p scripts ->
    String.prefix "bin/dlib_" p = true /\
    exists rest, p = "bin/dlib_" ++ rest.
Proof.
  intros p Hp.
  assert (H : String.prefix "bin/dlib_" p = true).
  { revert p Hp. apply checked_on_list. vm_compute. reflexivity. }
  split; [exact H|]. now apply prefix_splits.
Qed.

Lemma scripts_share_prefix_witness :
  In "bin/dlib_tests" scripts /\
  String.prefix "bin/dlib_" "bin/dlib_tests" = true /\
  exists rest, "bin/dlib_tests" = "bin/dlib_" ++ rest.
Proof.
  split; [member|]. apply (scripts_share_prefix "bin/dlib_tests"). member.
Defined.

(** C8, as it is worded, places the two occurrences at positions 4 and 10.
    That holds neither counting from one nor counting from zero: the
    eleventh element is [bin/dlib_tests], the tenth [bin/dlib_visualize_model]. *)
Lemma repeated_script_not_at_4_and_10 :
  positions_from 1 repeated_script scripts <> [4; 10] /\
  positions_from 0 repeated_script scripts <> [4; 10] /\
  nth_error scripts 10 = Some "bin/dlib_tests" /\
  nth_error scripts 9 = Some "bin/dlib_visualize_model".
Proof.
  split; [|split; [|split; reflexivity]]; vm_compute; discriminate.
Qed.

(** C8 (amended): the script list is not free of duplicates.  It has 17
    elements; [bin/dlib_visualize_dataset] occurs exactly twice, as the
    fourth and the ninth element (counting from one); every other path
    occurs exactly once; so the list holds 16 different paths. *)
Theorem scripts_repeat_one_path :
  length scripts = 17 /\
  ~ List.NoDup scripts /\
  occurrences repeated_script scripts = 2 /\
  positions_from 1 repeated_script scripts = [4; 9] /\
  (forall p, In p scripts -> p <> repeated_script -> occurrences p scripts = 1) /\
  length (distinct scripts) = 16.
Proof.
  split; [reflexivity|]. split; [|split; [reflexivity|split; [reflexivity|split]]].
  - intros H.
    pose proof (proj1 (NoDup_count_occ string_dec scripts) H repeated_script) as Hle.
    vm_compute in Hle. lia.
  - intros p Hp Hne.
    apply (checked_on_list
             (fun x => String.eqb x repeated_script
                       || Nat.eqb (occurrences x scripts) 1)) in Hp.
    + apply orb_true_iff in Hp. destruct Hp as [Heq|Hone].
      * apply String.eqb_eq in Heq. contradiction.
      * now apply Nat.eqb_eq in Hone.
    + vm_compute. reflexivity.
  - reflexivity.
Qed.

Lemma scripts_repeat_one_path_witness :
  In "bin/dlib_train" scripts /\
  "bin/dlib_train" <> repeated_script /\
  occurrences "bin/dlib_train" scripts = 1.
Proof.
  assert (Hin : In "bin/dlib_train" scripts) by member.
  assert (Hne : "bin/dlib_train" <> repeated_script) by (vm_compute; discriminate).
  split; [exact Hin|]. split; [exact Hne|].
  exact (proj1 (proj2 (proj2 (proj2 (proj2 scripts_repeat_one_path))))
           "bin/dlib_train" Hin Hne).
Defined.

(** *** The source tree *)

(** C6: every path of the script list resolves, in the source tree, to an
    existing file that is executable. *)
Theorem scripts_resolve_to_executables :
  forall p, In p scripts ->
    SourceTree.tree !! p = Some (SourceTree.File true) /\
    SourceTree.is_executable SourceTree.tree p = true.
Proof.
  intros p Hp.
  assert (H : SourceTree.is_executable SourceTree.tree p = true).
  { revert p Hp. apply checked_on_list. vm_compute. reflexivity. }
  split; [|exact H].
  unfold SourceTree.is_executable in H.
  destruct (SourceTree.tree !! p) as [[[|]|]|]; try discriminate. reflexivity.
Qed.

Lemma scripts_resolve_to_executables_witness :
  In "bin/dlib_evaluate" scripts /\
  SourceTree.tree !! "bin/dlib_evaluate" = Some (SourceTree.File true) /\
  SourceTree.is_executable SourceTree.tree "bin/dlib_evaluate" = true.
Proof.
  split; [member|]. apply (scripts_resolve_to_executables "bin/dlib_evaluate"). member.
Defined.

(** *** Metadata and the manifest *)

(** C5: the name, version and license passed to [setup] are the strings
    [disentanglement_lib], [1.5] and [Apache 2.0], each of them non-empty. *)
Theorem metadata_non_empty (find_packages : list string) :
  let kw := setup find_packages in
  kw_name kw = "disentanglement_lib" /\ 0 < String.length (kw_name kw) /\
  kw_version kw = "1.5" /\ 0 < String.length (kw_version kw) /\
  kw_license kw = "Apache 2.0" /\ 0 < String.length (kw_license kw).
Proof. simpl. repeat split; vm_compute; lia. Qed.

(** Only the package list comes from outside the descriptor. *)
Remark setup_packages (find_packages : list string) :
  kw_packages (setup find_packages) = find_packages.
Proof. reflexivity. Qed.

Lemma strs_of_str_list (l : list string) : strs (map Py.VStr l) = Some l.
Proof.
  induction l as [|x l IH]; simpl; [reflexivity|]. rewrite IH. reflexivity.
Qed.

(** Running the descriptor makes one call of [setup], with the fourteen
    keyword arguments of the file, and they are those of [setup found]. *)
Lemma descriptor_runs (found : list string) :
  exists kwargs,
    Py.run found descriptor = Some [kwargs] /\
    map fst kwargs = setup_keyword_names /\
    keywords_of_call kwargs = Some (setup found).
Proof.
  eexists. split; [|split].
  - cbv -[Py.str_list]. reflexivity.
  - reflexivity.
  - unfold keywords_of_call. cbn -[Py.str_list setup].
    unfold Py.str_list. rewrite strs_of_str_list. reflexivity.
Qed.

(** A module with a branch is told apart: it is not free of control
    flow, and the name it passes changes with what is found. *)
Example branching_descriptor_depends_on_input :
  Py.control_free branching_descriptor = false /\
  Py.run [] branching_descriptor = Some [[("name", Py.VStr "empty")]] /\
  Py.run ["disentanglement_lib"] branching_descriptor
  = Some [[("name", Py.VStr "disentanglement_lib")]].
Proof. repeat split. Qed.

(** C7: the descriptor is declarative and deterministic.  Its text holds
    no branch, no loop and no conditional expression.  Whatever package
    discovery returns, running it succeeds and makes exactly one call of
    [setup], whose keyword arguments are the literals of the file, the
    package list alone being what was found.  So the name, version,
    script list, dependency list, extras and classifiers are the same on
    any two runs. *)
Theorem descriptor_declarative_and_deterministic :
  Py.control_free descriptor = true /\
  (forall found : list string,
     exists kwargs,
       Py.run found descriptor = Some [kwargs] /\
       map fst kwargs = setup_keyword_names /\
       keywords_of_call kwargs = Some (setup found)) /\
  (forall found : list string,
     setup found =
     {| kw_name := "disentanglement_lib";
        kw_version := "1.5";
        kw_description := "Library for research on disentangled representations.";
        kw_author := "DisentanglementLib Authors";
        kw_author_email := "no-reply@google.com";
        kw_url := "http://github.com/google-research/disentanglement_lib";
        kw_license := "Apache 2.0";
        kw_packages := found;
        kw_include_package_data := true;
        kw_scripts := scripts;
        kw_install_requires := install_requires;
        kw_extras_require := extras_require;
        kw_classifiers := classifiers;
        kw_keywords := "tensorflow machine learning disentanglement learning" |}) /\
  (forall found1 found2 : list string,
     kw_name (setup found1) = kw_name (setup found2) /\
     kw_version (setup found1) = kw_version (setup found2) /\
     kw_scripts (setup found1) = kw_scripts (setup found2) /\
     kw_install_requires (setup found1) = kw_install_requires (setup found2) /\
     kw_extras_require (setup found1) = kw_extras_require (setup found2) /\
     kw_classifiers (setup found1) = kw_classifiers (setup found2)).
Proof.
  split; [vm_compute; reflexivity|].
  split; [exact descriptor_runs|].
  split; [reflexivity|].
  intros found1 found2. repeat split.
Qed.

(** *** Requirement strings *)

Lemma prepend_some (c : ascii) (o : option (string * string)) (n v : string) :
  prepend c o = Some (n, v) ->
  exists n', o = Some (n', v) /\ n = String c n'.
Proof.
  destruct o as [[n' v']|]; simpl; intros H; [|discriminate].
  injection H as <- <-. exists n'. split; reflexivity.
Qed.

(** What [split_pin] returns are the two sides of an [==] in the string. *)
Lemma split_pin_sound (s n v : string) :
  split_pin s = Some (n, v) -> s = n ++ "==" ++ v.
Proof.
  revert n. induction s as [|c s IH]; intros n H; [discriminate|].
  simpl in H. destruct s as [|d w]; [discriminate|].
  destruct (Ascii.eqb c "=" && Ascii.eqb d "=") eqn:E.
  - injection H as <- <-. apply andb_true_iff in E. destruct E as [Ec Ed].
    apply Ascii.eqb_eq in Ec, Ed. subst. reflexivity.
  - apply prepend_some in H. destruct H as (n' & Hs & ->).
    rewrite (IH n' Hs). reflexivity.
Qed.

Lemma exact_pin_form (r : string) :
  is_exact_pin r = true ->
  exists n v, r = n ++ "==" ++ v /\ is_name n = true /\ is_version v = true.
Proof.
  unfold is_exact_pin. destruct (split_pin r) as [[n v]|] eqn:E; [|discriminate].
  intros H. apply andb_true_iff in H. destruct H as [Hn Hv].
  exists n, v. split; [now apply split_pin_sound|]. split; assumption.
Qed.

Lemma all_chars_app (f : ascii -> bool) (a b : string) :
  all_chars f (a ++ b) = all_chars f a && all_chars f b.
Proof.
  induction a as [|c a IH]; simpl; [reflexivity|].
  rewrite IH. apply andb_assoc.
Qed.

Lemma all_chars_weaken (f g : ascii -> bool) (s : string) :
  (forall c, f c = true -> g c = true) ->
  all_chars f s = true -> all_chars g s = true.
Proof.
  intros Hfg. induction s as [|c s IH]; simpl; [reflexivity|].
  intros H. apply andb_true_iff in H. destruct H as [Hc Hs].
  rewrite (Hfg c Hc), (IH Hs). reflexivity.
Qed.

Lemma is_name_chars (n : string) :
  is_name n = true -> all_chars (fun x => is_alnum x || is_sep x) n = true.
Proof.
  unfold is_name. destruct n as [|c n]; [discriminate|].
  destruct (last_char (String c n)); [|discriminate].
  intros H. apply andb_true_iff in H. exact (proj2 H).
Qed.

Lemma is_release_chars (seg : bool) (v : string) :
  is_release seg v = true ->
  all_chars (fun x => is_digit x || Ascii.eqb x ".") v = true.
Proof.
  revert seg. induction v as [|c v IH]; intros seg; simpl; [reflexivity|].
  destruct (is_digit c); simpl.
  - apply IH.
  - destruct (Ascii.eqb c "."); [|discriminate]. simpl.
    intros H. apply andb_true_iff in H. exact (IH false (proj2 H)).
Qed.

(** An exact pin is written with letters, digits, separators and [=]
    only: it has no range sign, no wildcard and no second clause. *)
Lemma exact_pin_chars (r : string) :
  is_exact_pin r = true -> all_chars is_pin_char r = true.
Proof.
  intros H. destruct (exact_pin_form r H) as (n & v & -> & Hn & Hv).
  apply is_name_chars in Hn. apply is_release_chars in Hv.
  assert (Hn' : all_chars is_pin_char n = true).
  { revert Hn. apply all_chars_weaken. intros c Hc.
    unfold is_pin_char. rewrite Hc. reflexivity. }
  assert (Hv' : all_chars is_pin_char v = true).
  { revert Hv. apply all_chars_weaken. intros c Hc.
    unfold is_pin_char, is_alnum, is_sep.
    apply orb_true_iff in Hc. destruct Hc as [->| ->]; [reflexivity|].
    rewrite !orb_true_r. reflexivity. }
  rewrite !all_chars_app, Hn', Hv'. reflexivity.
Qed.

(** The two items of the [extras_require] literal. *)
Lemma extras_require_items (k : string) (reqs : list string) :
  extras_require !! k = Some reqs ->
  (k = "tf" /\ reqs = ["tensorflow==1.14"]) \/
  (k = "tf_gpu" /\ reqs = ["tensorflow-gpu==1.14"]).
Proof.
  unfold extras_require. intros H.
  apply lookup_insert_Some in H. destruct H as [[<- <-]|[_ H]].
  - right. split; reflexivity.
  - apply lookup_insert_Some in H. destruct H as [[<- <-]|[_ H]].
    + left. split; reflexivity.
    + rewrite lookup_empty in H. discriminate.
Qed.

(** C2: every string of [install_requires] is an exact pin
    [<name>==<version>], a name followed by [==] and a plain release
    number; numpy is pinned to 1.16.3, pandas to 0.24.2, scikit-learn to
    0.20.3, tensorflow-hub to 0.4.0 and tensorflow_probability to 0.7.0. *)
Theorem install_requires_exact_pins :
  (forall r, In r install_requires ->
     is_exact_pin r = true /\
     all_chars is_pin_char r = true /\
     exists n v, r = n ++ "==" ++ v /\ is_name n = true /\ is_version v = true) /\
  In "numpy==1.16.3" install_requires /\
  In "pandas==0.24.2" install_requires /\
  In "scikit-learn==0.20.3" install_requires /\
  In "tensorflow-hub==0.4.0" install_requires /\
  In "tensorflow_probability==0.7.0" install_requires /\
  pinned_version install_requires "numpy" = Some "1.16.3" /\
  pinned_version install_requires "pandas" = Some "0.24.2" /\
  pinned_version install_requires "scikit-learn" = Some "0.20.3" /\
  pinned_version install_requires "tensorflow-hub" = Some "0.4.0" /\
  pinned_version install_requires "tensorflow_probability" = Some "0.7.0".
Proof.
  split.
  - intros r Hr.
    assert (H : is_exact_pin r = true).
    { revert r Hr. apply checked_on_list. vm_compute. reflexivity. }
    split; [exact H|]. split; [now apply exact_pin_chars|now apply exact_pin_form].
  - repeat split; try reflexivity; member.
Qed.

Lemma install_requires_exact_pins_witness :
  In "six==1.12.0" install_requires /\
  is_exact_pin "six==1.12.0" = true /\
  all_chars is_pin_char "six==1.12.0" = true /\
  exists n v, "six==1.12.0" = n ++ "==" ++ v /\ is_name n = true /\ is_version v = true.
Proof.
  split; [member|].
  apply (proj1 install_requires_exact_pins "six==1.12.0"). member.
Defined.

(** C3: [extras_require] offers the choice between the CPU and the GPU
    build of TensorFlow: its keys are [tf] and [tf_gpu] and no other, [tf]
    maps to the one requirement [tensorflow==1.14] and [tf_gpu] to the one
    requirement [tensorflow-gpu==1.14]. *)
Theorem extras_require_cpu_or_gpu :
  dom extras_require = ({["tf"; "tf_gpu"]} : gset string) /\
  (forall k, is_Some (extras_require !! k) <-> k = "tf" \/ k = "tf_gpu") /\
  extras_require !! "tf" = Some ["tensorflow==1.14"] /\
  extras_require !! "tf_gpu" = Some ["tensorflow-gpu==1.14"].
Proof.
  assert (Hdom : dom extras_require = ({["tf"; "tf_gpu"]} : gset string)).
  { unfold extras_require. rewrite !dom_insert_L, dom_empty_L. set_solver. }
  split; [exact Hdom|]. split; [|split; reflexivity].
  intros k. rewrite <- elem_of_dom, Hdom. set_solver.
Qed.

(** C4: TensorFlow is among the declared dependencies: a dependency string
    of the call, here the one of the extra [tf], names the package
    [tensorflow]. *)
Theorem tensorflow_is_declared :
  exists r, declared r /\ names r "tensorflow" = true.
Proof.
  exists "tensorflow==1.14". split; [|reflexivity].
  right. exists "tf", ["tensorflow==1.14"]. split; [reflexivity|]. left. reflexivity.
Qed.

(** C10: no string of [install_requires] names [tensorflow] or
    [tensorflow-gpu]; a declared dependency string that names one of them
    is not in [install_requires] but under the extra [tf] or [tf_gpu], and
    is an exact pin of version 1.14; each of the two extras pins its build
    to 1.14. *)
Theorem tensorflow_only_through_extras :
  (forall r, In r install_requires ->
     names r "tensorflow" = false /\ names r "tensorflow-gpu" = false) /\
  (forall r, declared r ->
     names r "tensorflow" = true \/ names r "tensorflow-gpu" = true ->
     ~ In r install_requires /\
     (In r (extra "tf") \/ In r (extra "tf_gpu")) /\
     is_exact_pin r = true /\
     exists n, split_pin r = Some (n, "1.14")) /\
  pinned_version (extra "tf") "tensorflow" = Some "1.14" /\
  pinned_version (extra "tf_gpu") "tensorflow-gpu" = Some "1.14".
Proof.
  assert (Hbase : forall r, In r install_requires ->
            names r "tensorflow" = false /\ names r "tensorflow-gpu" = false).
  { intros r Hr.
    apply (checked_on_list
             (fun x => negb (names x "tensorflow") && negb (names x "tensorflow-gpu")))
      in Hr; [|vm_compute; reflexivity].
    apply andb_true_iff in Hr. destruct Hr as [H1 H2].
    apply negb_true_iff in H1, H2. split; assumption. }
  split; [exact Hbase|]. split; [|split; reflexivity].
  intros r [Hr|(k & reqs & Hk & Hr)] Hnames.
  - destruct (Hbase r Hr) as [H1 H2].
    destruct Hnames as [H|H]; congruence.
  - assert (Hout : ~ In r install_requires).
    { intros Hin. destruct (Hbase r Hin) as [H1 H2].
      destruct Hnames as [H|H]; congruence. }
    split; [exact Hout|].
    apply extras_require_items in Hk.
    destruct Hk as [[-> ->]|[-> ->]]; destruct Hr as [<-|[]].
    + split; [left; member|]. split; [reflexivity|]. eexists. reflexivity.
    + split; [right; member|]. split; [reflexivity|]. eexists. reflexivity.
Qed.

Lemma tensorflow_only_through_extras_witness :
  (In "tensorflow-hub==0.4.0" install_requires /\
   names "tensorflow-hub==0.4.0" "tensorflow" = false /\
   names "tensorflow-hub==0.4.0" "tensorflow-gpu" = false) /\
  (declared "tensorflow-gpu==1.14" /\
   names "tensorflow-gpu==1.14" "tensorflow-gpu" = true /\
   ~ In "tensorflow-gpu==1.14" install_requires /\
   (In "tensorflow-gpu==1.14" (extra "tf") \/ In "tensorflow-gpu==1.14" (extra "tf_gpu")) /\
   is_exact_pin "tensorflow-gpu==1.14" = true /\
   exists n, split_pin "tensorflow-gpu==1.14" = Some (n, "1.14")).
Proof.
  assert (Hin : In "tensorflow-hub==0.4.0" install_requires) by member.
  assert (Hdecl : declared "tensorflow-gpu==1.14").
  { right. exists "tf_gpu", ["tensorflow-gpu==1.14"].
    split; [reflexivity|]. left. reflexivity. }
  split.
  - split; [exact Hin|].
    exact (proj1 tensorflow_only_through_extras "tensorflow-hub==0.4.0" Hin).
  - split; [exact Hdecl|]. split; [reflexivity|].
    exact (proj1 (proj2 tensorflow_only_through_extras) "tensorflow-gpu==1.14"
             Hdecl (or_intror eq_refl)).
Defined.

(** *** Splitting and joining *)

Lemma strip_prefix_sound (p s r : string) :
  Text.strip_prefix p s = Some r -> s = p ++ r.
Proof.
  revert s. induction p as [|a p IH]; intros s H; simpl in H.
  - injection H as ->. reflexivity.
  - destruct s as [|b s]; [discriminate|].
    destruct (Ascii.eqb a b) eqn:E; [|discriminate].
    apply Ascii.eqb_eq in E. subst b. rewrite (IH s H). reflexivity.
Qed.

Lemma split_fuel_parts (fuel : nat) (sep s : string) :
  exists seg segs, Text.split_fuel fuel sep s = seg :: segs.
Proof.
  revert s. induction fuel as [|fuel IH]; intros s; simpl.
  - eauto.
  - destruct (Text.strip_prefix sep s); [eauto|].
    destruct s as [|c s]; [eauto|].
    destruct (IH s) as (seg & segs & ->). simpl. eauto.
Qed.

Lemma join_push (sep : string) (c : ascii) (seg : string) (segs : list string) :
  Text.join sep (Text.push c (seg :: segs)) = String c (Text.join sep (seg :: segs)).
Proof. destruct segs; reflexivity. Qed.

(** Joining the parts of a split with the separator gives the text back,
    whatever the fuel. *)
Lemma join_split_fuel (fuel : nat) (sep s : string) :
  Text.join sep (Text.split_fuel fuel sep s) = s.
Proof.
  revert s. induction fuel as [|fuel IH]; intros s; [reflexivity|].
  simpl. destruct (Text.strip_prefix sep s) as [r|] eqn:E.
  - apply strip_prefix_sound in E. subst s.
    destruct (split_fuel_parts fuel sep r) as (seg & segs & Hs).
    specialize (IH r). rewrite Hs in *. simpl in *. rewrite IH. reflexivity.
  - destruct s as [|c s]; [reflexivity|].
    destruct (split_fuel_parts fuel sep s) as (seg & segs & Hs).
    specialize (IH s). rewrite Hs in *. rewrite join_push, IH. reflexivity.
Qed.

Lemma join_split (sep s : string) : Text.join sep (Text.split sep s) = s.
Proof. apply join_split_fuel. Qed.

(** *** Names and pins *)

Lemma name_char_not_equals (c : ascii) :
  is_alnum c || is_sep c = true -> Ascii.eqb c "=" = false.
Proof.
  intros H. destruct (Ascii.eqb_spec c "=") as [->|]; [|reflexivity].
  vm_compute in H. discriminate.
Qed.

Lemma split_pin_step (c : ascii) (s : string) :
  Ascii.eqb c "=" = false -> s <> EmptyString ->
  split_pin (String c s) = prepend c (split_pin s).
Proof.
  intros Hc Hs. destruct s as [|d w]; [contradiction|].
  change (split_pin (String c (String d w)))
    with (if Ascii.eqb c "=" && Ascii.eqb d "=" then Some (EmptyString, w)
          else prepend c (split_pin (String d w))).
  rewrite Hc. reflexivity.
Qed.

(** Cutting [n==v] at its first [==] gives [n] and [v] back, for [n] made
    of name characters. *)
Lemma split_pin_complete (n v : string) :
  all_chars (fun x => is_alnum x || is_sep x) n = true ->
  split_pin (n ++ "==" ++ v) = Some (n, v).
Proof.
  induction n as [|c n IH]; intros H; [reflexivity|].
  simpl in H. apply andb_true_iff in H. destruct H as [Hc Hn].
  change (String c n ++ "==" ++ v) with (String c (n ++ "==" ++ v)).
  rewrite split_pin_step.
  - rewrite (IH Hn). reflexivity.
  - now apply name_char_not_equals.
  - destruct n; discriminate.
Qed.

(** A name followed by [==] and a release number is an exact pin. *)
Lemma exact_pin_of_name_and_version (n v : string) :
  is_name n = true -> is_version v = true ->
  is_exact_pin (n ++ "==" ++ v) = true.
Proof.
  intros Hn Hv. unfold is_exact_pin.
  rewrite split_pin_complete by now apply is_name_chars.
  rewrite Hn, Hv. reflexivity.
Qed.

(** The leading name of [n==v] is [n]. *)
Lemma leading_name_of_pin (n v : string) :
  all_chars (fun x => is_alnum x || is_sep x) n = true ->
  leading_name (n ++ "==" ++ v) = n.
Proof.
  induction n as [|c n IH]; intros H; [reflexivity|].
  simpl in H. apply andb_true_iff in H. destruct H as [Hc Hn].
  change (String c n ++ "==" ++ v) with (String c (n ++ "==" ++ v)).
  simpl. rewrite Hc, (IH Hn). reflexivity.
Qed.

(** In a list whose images under [f] are pairwise different, [f] tells
    the members apart. *)
Lemma told_apart (f : string -> string) (l : list string) :
  List.NoDup (map f l) ->
  forall x y, In x l -> In y l -> f x = f y -> x = y.
Proof.
  induction l as [|a l IH]; intros Hnd x y Hx Hy Hf; [destruct Hx|].
  simpl in Hnd. apply List.NoDup_cons_iff in Hnd. destruct Hnd as [Ha Hnd].
  destruct Hx as [<-|Hx], Hy as [<-|Hy].
  - reflexivity.
  - exfalso. apply Ha. rewrite Hf. now apply in_map.
  - exfalso. apply Ha. rewrite <- Hf. now apply in_map.
  - now apply IH.
Qed.

Lemma declared_listed (r : string) : declared r <-> In r all_declared.
Proof.
  unfold all_declared. rewrite !in_app_iff. split.
  - intros [H|(k & reqs & Hk & Hr)]; [now left|].
    apply extras_require_items in Hk. destruct Hk as [[-> ->]|[-> ->]].
    + right. left. exact Hr.
    + right. right. exact Hr.
  - intros [H|[H|H]]; [now left| |].
    + right. exists "tf", (extra "tf"). split; [reflexivity|exact H].
    + right. exists "tf_gpu", (extra "tf_gpu"). split; [reflexivity|exact H].
Qed.

(** *** Further properties of the keyword arguments *)

(** X1: no package is constrained twice.  Two dependency strings of the
    call, from [install_requires] or from any extra, that are about the
    same package are the same string. *)
Theorem declared_packages_differ (r1 r2 : string) :
  declared r1 -> declared r2 ->
  requirement_package r1 = requirement_package r2 -> r1 = r2.
Proof.
  intros H1 H2. apply declared_listed in H1, H2.
  apply (told_apart requirement_package all_declared); try assumption.
  apply (NoDup_count_occ' string_dec). intros x Hx.
  apply (checked_on_list
           (fun y => Nat.eqb (count_occ string_dec
                                (map requirement_package all_declared) y) 1)) in Hx.
  - now apply Nat.eqb_eq in Hx.
  - vm_compute. reflexivity.
Qed.

Lemma declared_packages_differ_witness :
  declared "Pillow==6.0.0" /\ "Pillow==6.0.0" = "Pillow==6.0.0".
Proof.
  assert (H : declared "Pillow==6.0.0") by (left; member).
  split; [exact H|].
  exact (declared_packages_differ "Pillow==6.0.0" "Pillow==6.0.0" H H eq_refl).
Defined.

(** X2: every dependency string of the call, also those under the extras,
    is an exact pin: it is [n==v] for a name [n] and a release number [v],
    [split_pin] finds them, and [n] is the package the string is about. *)
Theorem declared_are_exact_pins (r : string) :
  declared r ->
  is_exact_pin r = true /\
  exists n v, split_pin r = Some (n, v) /\ r = n ++ "==" ++ v /\
              is_name n = true /\ is_version v = true /\
              requirement_package r = canonical n.
Proof.
  intros H. apply declared_listed in H.
  assert (Hp : is_exact_pin r = true).
  { revert r H. apply checked_on_list. vm_compute. reflexivity. }
  split; [exact Hp|].
  unfold is_exact_pin in Hp.
  destruct (split_pin r) as [[n v]|] eqn:E; [|discriminate].
  apply andb_true_iff in Hp. destruct Hp as [Hn Hv].
  exists n, v. split; [reflexivity|].
  apply split_pin_sound in E. split; [exact E|]. split; [exact Hn|]. split; [exact Hv|].
  unfold requirement_package. rewrite E.
  rewrite leading_name_of_pin by now apply is_name_chars. reflexivity.
Qed.

Lemma declared_are_exact_pins_witness :
  declared "tensorflow==1.14" /\
  is_exact_pin "tensorflow==1.14" = true /\
  exists n v, split_pin "tensorflow==1.14" = Some (n, v) /\
              "tensorflow==1.14" = n ++ "==" ++ v /\
              is_name n = true /\ is_version v = true /\
              requirement_package "tensorflow==1.14" = canonical n.
Proof.
  assert (H : declared "tensorflow==1.14").
  { right. exists "tf", ["tensorflow==1.14"]. split; [reflexivity|]. left. reflexivity. }
  split; [exact H|]. exact (declared_are_exact_pins "tensorflow==1.14" H).
Defined.

(** X3: every script is a file directly under [bin]: its path has the two
    components [bin] and a file name, and the file name is made of
    lowercase letters and underscores only (no further slash, no dot, no
    blank). *)
Theorem scripts_are_command_files (p : string) :
  In p scripts ->
  exists f, Text.split "/" p = ["bin"; f] /\ p = "bin/" ++ f /\
            is_command_name f = true.
Proof.
  intros Hp.
  apply (checked_on_list
           (fun x => match Text.split "/" x with
                     | [d; f] => String.eqb d "bin" && is_command_name f
                     | _ => false
                     end)) in Hp; [|vm_compute; reflexivity].
  pose proof (join_split "/" p) as Hj.
  destruct (Text.split "/" p) as [|d [|f [|]]]; try discriminate.
  apply andb_true_iff in Hp. destruct Hp as [Hd Hf].
  apply String.eqb_eq in Hd. subst d.
  exists f. split; [reflexivity|]. split; [|exact Hf].
  rewrite <- Hj. reflexivity.
Qed.

Lemma scripts_are_command_files_witness :
  In "bin/dlib_udr" scripts /\
  exists f, Text.split "/" "bin/dlib_udr" = ["bin"; f] /\
            "bin/dlib_udr" = "bin/" ++ f /\ is_command_name f = true.
Proof.
  split; [member|]. apply (scripts_are_command_files "bin/dlib_udr"). member.
Defined.

(** X4: the classifiers are pairwise different, and each is made of at
    least two parts joined by [ :: ], every part non-empty, free of
    colons and without a blank at either end. *)
Theorem classifiers_well_formed :
  List.NoDup classifiers /\
  forall c, In c classifiers ->
    c = Text.join " :: " (segments c) /\
    2 <= length (segments c) /\
    forall s, In s (segments c) -> is_segment s = true.
Proof.
  split.
  - apply (NoDup_count_occ' string_dec). intros c Hc.
    apply (checked_on_list
             (fun x => Nat.eqb (count_occ string_dec classifiers x) 1)) in Hc.
    + now apply Nat.eqb_eq in Hc.
    + vm_compute. reflexivity.
  - intros c Hc. split; [symmetry; apply join_split|].
    apply (checked_on_list
             (fun x => Nat.leb 2 (length (segments x))
                       && forallb is_segment (segments x))) in Hc;
      [|vm_compute; reflexivity].
    apply andb_true_iff in Hc. destruct Hc as [Hlen Hseg].
    split; [now apply Nat.leb_le in Hlen|].
    intros s Hs. exact (proj1 (forallb_forall _ _) Hseg s Hs).
Qed.

Lemma classifiers_well_formed_witness :
  In "Intended Audience :: Science/Research" classifiers /\
  2 <= length (segments "Intended Audience :: Science/Research") /\
  is_segment "Science/Research" = true.
Proof.
  assert (Hc : In "Intended Audience :: Science/Research" classifiers) by member.
  destruct (proj2 classifiers_well_formed _ Hc) as (_ & Hlen & Hseg).
  split; [exact Hc|]. split; [exact Hlen|].
  apply Hseg. member.
Defined.

(** X5: the license field and the classifiers agree.  Exactly one
    classifier is filed under [License], and its last part starts with
    the family the [license] field names (its first word, [Apache]). *)
Theorem license_matches_classifier :
  hd EmptyString (Text.split " " license) = "Apache" /\
  length (List.filter (fun c => String.eqb (category c) "License") classifiers) = 1 /\
  forall c, In c classifiers -> category c = "License" ->
    String.prefix (hd EmptyString (Text.split " " license)) (leaf c) = true.
Proof.
  split; [reflexivity|]. split; [reflexivity|].
  intros c Hc Hcat.
  apply (checked_on_list
           (fun x => negb (String.eqb (category x) "License")
                     || String.prefix (hd EmptyString (Text.split " " license)) (leaf x)))
    in Hc; [|vm_compute; reflexivity].
  apply orb_true_iff in Hc. destruct Hc as [Hno|Hyes]; [|exact Hyes].
  apply negb_true_iff in Hno. apply String.eqb_neq in Hno. contradiction.
Qed.

Lemma license_matches_classifier_witness :
  In "License :: OSI Approved :: Apache Software License" classifiers /\
  category "License :: OSI Approved :: Apache Software License" = "License" /\
  String.prefix (hd EmptyString (Text.split " " license))
    (leaf "License :: OSI Approved :: Apache Software License") = true.
Proof.
  assert (Hc : In "License :: OSI Approved :: Apache Software License" classifiers)
    by member.
  split; [exact Hc|]. split; [reflexivity|].
  exact (proj2 (proj2 license_matches_classifier) _ Hc eq_refl).
Defined.

(** A text without the separating character is one part. *)
Lemma split_without_separator (c : ascii) (s : string) :
  Text.contains c s = false ->
  Text.split (String c EmptyString) s = [s].
Proof.
  unfold Text.split, Text.contains. intros H. apply negb_false_iff in H.
  induction s as [|d s IH]; [reflexivity|].
  simpl in H. apply andb_true_iff in H. destruct H as [Hd Hs].
  apply negb_true_iff in Hd. rewrite Ascii.eqb_sym in Hd.
  simpl. rewrite Hd, (IH Hs). reflexivity.
Qed.

(** A string without a comma is read as one keyword. *)
Lemma keyword_entries_without_comma (value : string) :
  Text.contains "," value = false -> keyword_entries value = [strip value].
Proof.
  intros H. unfold keyword_entries.
  rewrite split_without_separator by exact H. reflexivity.
Qed.

(** X6: the keywords string holds no comma, so, cut at commas and
    stripped, it is read as one keyword, the whole string, and not as
    several.  The string is five lowercase words separated by single
    blanks, [learning] standing twice among them. *)
Theorem keywords_are_one_entry :
  Text.contains "," keywords = false /\
  keyword_entries keywords = [keywords] /\
  keywords = Text.join " " (words keywords) /\
  length (words keywords) = 5 /\
  (forall w, In w (words keywords) -> is_lower_word w = true) /\
  occurrences "learning" (words keywords) = 2.
Proof.
  split; [reflexivity|].
  split; [rewrite keyword_entries_without_comma; reflexivity|].
  split; [symmetry; apply join_split|].
  split; [reflexivity|]. split; [|reflexivity].
  apply checked_on_list. vm_compute. reflexivity.
Qed.

Lemma keywords_are_one_entry_witness :
  In "disentanglement" (words keywords) /\
  is_lower_word "disentanglement" = true.
Proof.
  assert (Hw : In "disentanglement" (words keywords)) by member.
  split; [exact Hw|].
  exact (proj1 (proj2 (proj2 (proj2 (proj2 keywords_are_one_entry)))) _ Hw).
Defined.

(** X7: the package can be pinned the way it pins its dependencies: its
    name is a distribution name, its version a release number, so
    [name==version] is an exact pin that [split_pin] cuts back into the
    two; the keys of [extras_require] are names as well. *)
Theorem package_identifiers_well_formed :
  is_name name = true /\
  is_version version = true /\
  is_exact_pin (name ++ "==" ++ version) = true /\
  split_pin (name ++ "==" ++ version) = Some (name, version) /\
  forall k, is_Some (extras_require !! k) -> is_name k = true.
Proof.
  assert (Hn : is_name name = true) by reflexivity.
  assert (Hv : is_version version = true) by reflexivity.
  split; [exact Hn|]. split; [exact Hv|].
  split; [now apply exact_pin_of_name_and_version|].
  split; [apply split_pin_complete; now apply is_name_chars|].
  intros k [reqs Hk]. apply extras_require_items in Hk.
  destruct Hk as [[-> _]|[-> _]]; reflexivity.
Qed.

Lemma package_identifiers_well_formed_witness :
  is_Some (extras_require !! "tf_gpu") /\ is_name "tf_gpu" = true.
Proof.
  assert (H : is_Some (extras_require !! "tf_gpu")) by (eexists; reflexivity).
  split; [exact H|].
  exact (proj2 (proj2 (proj2 (proj2 package_identifiers_well_formed))) "tf_gpu" H).
Defined.
